(** * rebound.SimulationArchive: a shallow embedding and its properties

    The development follows [rebound/simulation_archive.py].  The class
    [SimulationArchive] becomes a record [Archive] holding the attributes the
    constructor assigns, and every method becomes a computation in a small
    state-and-exception monad whose state is the archive object.  In Python
    an exception does not undo the attribute writes that happened before it,
    so the monad returns the final state on both outcomes.

    Conventions of the model:
    - Python floats ([t], [dt], [interval], [tmin], [tmax], [speed]) are
      exact rationals ([Q]); rounding of IEEE doubles is not modelled.
      Float division by zero raises [ZeroDivisionError], as in Python.
    - Python integers are [Z]; [c_long(blob)] is the identity on the indices
      considered (no wrap-around of the C type is modelled).
    - The C library [clibrebound], [os.path.getsize] and the methods of
      [Simulation] that only call into the C library are an interface,
      the record [Runtime]; the archive code is verified against every
      implementation of this interface.
    - [self.simp.contents] is one C struct shared by all the methods; it is
      the field [simp] of the archive, and a returned [sim] is the content of
      that struct at the time of the return.
    - A list passed by the caller lives in a heap of list objects and is
      named by its location, so that in-place sorting is visible. *)

From Stdlib Require Import ZArith QArith Qround Qminmax Bool List String Ascii.
From Stdlib Require Import Lia Lqa Sorted Permutation.
Import ListNotations.

Local Open Scope string_scope.
Local Open Scope Z_scope.

(** ** Python exceptions *)

(** The exceptions the module can raise.  Messages that the source fills in
    with [%d] carry the integer instead of the formatted text. *)
Inductive exn : Type :=
| AttributeError (msg : string)
| IndexError (msg : string) (arg : Z)
| ValueError (msg : string) (arg : option Z)
| NameError (name : string)
| ZeroDivisionError
| UnicodeEncodeError
| OSError
| StopIteration
| EngineError (code : Z).

Definition msg_slicing : string := "Slicing not supported due to optimizations.".
Definition msg_integer_index : string :=
  "Must access individual simulations with integer index.".
Definition msg_index_out_of_range : string :=
  "Index out of range, number of blobs stored in binary: %d.".
Definition msg_load_error : string :=
  "Error while loading blob in binary file. Errorcode: %d.".
Definition msg_cannot_modify : string := "Cannot modify SimulationArchive.".
Definition msg_outside_baseline : string :=
  "Requested time outside of baseline stored in binary fie.".
Definition msg_unknown_mode : string := "Unknown mode.".
Definition msg_len_negative : string := "__len__() should return >= 0".

(** ** The state-and-exception monad *)

Inductive result (A : Type) : Type :=
| Return (a : A)
| Raise (e : exn).
Arguments Return {A} a.
Arguments Raise {A} e.

Definition M (S A : Type) : Type := S -> result A * S.

Definition ret {S A} (a : A) : M S A := fun s => (Return a, s).
Definition raise {S A} (e : exn) : M S A := fun s => (Raise e, s).
Definition bind {S A B} (c : M S A) (k : A -> M S B) : M S B :=
  fun s =>
    match c s with
    | (Return a, s') => k a s'
    | (Raise e, s') => (Raise e, s')
    end.
Definition get {S} : M S S := fun s => (Return s, s).
Definition put {S} (s : S) : M S unit := fun _ => (Return tt, s).

Declare Scope py_scope.
Delimit Scope py_scope with py.
Notation "x <- c ;; k" := (bind c (fun x => k))
  (at level 61, c at next level, right associativity) : py_scope.
Notation "' pat <- c ;; k" := (bind c (fun x => match x with pat => k end))
  (at level 61, pat pattern, c at next level, right associativity) : py_scope.
Notation "c ;;; k" := (bind c (fun _ => k))
  (at level 61, right associativity) : py_scope.

(** Run a computation of the inner state inside a pair (heap, archive). *)
Definition lift_snd {H S A} (c : M S A) : M (H * S) A :=
  fun hs => let '(r, s') := c (snd hs) in (r, (fst hs, s')).

(** ** Python arithmetic *)

Definition Qlt_bool (x y : Q) : bool := negb (Qle_bool y x).

(** [a / b] on floats. *)
Definition float_div {S} (a b : Q) : M S Q :=
  if Qeq_bool b 0 then raise ZeroDivisionError else ret (a / b)%Q.

(** [int(a / b)] on integers.  Python 3 divides exactly and [int] truncates
    towards zero; Python 2 floors the quotient and [int] is the identity. *)
Definition int_of_div {S} (PY3 : bool) (a b : Z) : M S Z :=
  if b =? 0 then raise ZeroDivisionError
  else ret (if PY3 then Z.quot a b else Z.div a b).

(** [min(a, b)]: Python returns [b] when [b < a] and [a] otherwise. *)
Definition py_min (a b : Q) : Q := if Qlt_bool b a then b else a.

(** [max(0, n)] on integers. *)
Definition py_max0 (n : Z) : Z := if n >? 0 then n else 0.

(** [filename.encode("ascii")] fails on a character above 127. *)
Definition is_ascii (c : ascii) : bool := (nat_of_ascii c <? 128)%nat.
Fixpoint all_ascii (s : string) : bool :=
  match s with
  | EmptyString => true
  | String c s' => is_ascii c && all_ascii s'
  end.
Definition encode_ascii {S} (s : string) : M S string :=
  if all_ascii s then ret s else raise UnicodeEncodeError.

(** [list.sort()] on floats: a stable insertion sort; Python's sort is
    stable too, so the two agree on every list of numbers. *)
Fixpoint insert_sorted (x : Q) (l : list Q) : list Q :=
  match l with
  | [] => [x]
  | y :: l' => if Qle_bool x y then x :: y :: l' else y :: insert_sorted x l'
  end.
Fixpoint list_sort (l : list Q) : list Q :=
  match l with
  | [] => []
  | x :: l' => insert_sorted x (list_sort l')
  end.

(** ** The heap of caller-owned lists *)

Definition loc : Type := nat.
Definition Heap : Type := loc -> list Q.
Definition heap_set (h : Heap) (l : loc) (v : list Q) : Heap :=
  fun l' => if Nat.eqb l' l then v else h l'.

(** ** The simulation handle and the runtime interface *)

Section SimulationArchive.

Context {Body Forces : Type}.

(** The fields of [struct reb_simulation] the archive reads or writes;
    everything else (particles, integrator state) is [sim_body]. *)
Record Simulation : Type := mkSimulation {
  sim_t : Q;
  sim_dt : Q;
  simulationarchive_interval : Q;
  simulationarchive_seek_first : Z;
  simulationarchive_seek_blob : Z;
  simulationarchive_walltime : Q;
  ri_whfast_keep_unsynchronized : Z;
  sim_additional_forces : option Forces;
  simulationarchive_filename : option string;
  sim_body : Body
}.

Definition set_keep_unsynchronized (sim : Simulation) (v : Z) : Simulation :=
  {| sim_t := sim_t sim; sim_dt := sim_dt sim;
     simulationarchive_interval := simulationarchive_interval sim;
     simulationarchive_seek_first := simulationarchive_seek_first sim;
     simulationarchive_seek_blob := simulationarchive_seek_blob sim;
     simulationarchive_walltime := simulationarchive_walltime sim;
     ri_whfast_keep_unsynchronized := v;
     sim_additional_forces := sim_additional_forces sim;
     simulationarchive_filename := simulationarchive_filename sim;
     sim_body := sim_body sim |}.

Definition set_additional_forces (sim : Simulation) (f : option Forces)
  : Simulation :=
  {| sim_t := sim_t sim; sim_dt := sim_dt sim;
     simulationarchive_interval := simulationarchive_interval sim;
     simulationarchive_seek_first := simulationarchive_seek_first sim;
     simulationarchive_seek_blob := simulationarchive_seek_blob sim;
     simulationarchive_walltime := simulationarchive_walltime sim;
     ri_whfast_keep_unsynchronized := ri_whfast_keep_unsynchronized sim;
     sim_additional_forces := f;
     simulationarchive_filename := simulationarchive_filename sim;
     sim_body := sim_body sim |}.

Definition set_simulationarchive_filename (sim : Simulation)
  (f : option string) : Simulation :=
  {| sim_t := sim_t sim; sim_dt := sim_dt sim;
     simulationarchive_interval := simulationarchive_interval sim;
     simulationarchive_seek_first := simulationarchive_seek_first sim;
     simulationarchive_seek_blob := simulationarchive_seek_blob sim;
     simulationarchive_walltime := simulationarchive_walltime sim;
     ri_whfast_keep_unsynchronized := ri_whfast_keep_unsynchronized sim;
     sim_additional_forces := sim_additional_forces sim;
     simulationarchive_filename := f;
     sim_body := sim_body sim |}.

(** What the module calls but does not define. *)
Record Runtime : Type := mkRuntime {
  (** [sys.version_info[0] == 3] *)
  PY3 : bool;
  (** [os.path.getsize]; [None] when it raises [OSError]. *)
  os_path_getsize : string -> option Z;
  (** [reb_create_simulation] followed by
      [reb_create_simulation_from_binary_with_messages]: the Python value of
      [simp] ([None] when [simp is None]) and the warning bitmask [w.value]. *)
  reb_create_simulation_from_binary_with_messages :
    string -> option Simulation * Z;
  (** [reb_simulationarchive_load_blob(simp, cfilename, blob)]: the return
      code and the content of the handle afterwards. *)
  reb_simulationarchive_load_blob :
    Simulation -> string -> Z -> Z * Simulation;
  (** [sim.integrator_synchronize()] *)
  integrator_synchronize : Simulation -> Simulation;
  (** [sim.integrate(t, exact_finish_time)]: the exception it raises, if any,
      and the content of the handle afterwards. *)
  integrate : Simulation -> Q -> Z -> option exn * Simulation
}.

Variable R : Runtime.

(** ** The archive object *)

(** The attributes of a [SimulationArchive] instance.  [speed] is [None]
    until [estimateTime] assigns the attribute. *)
Record Archive : Type := mkArchive {
  additional_forces : option Forces;
  cfilename : string;
  simp : Simulation;
  filesize : Z;
  dt : Q;
  interval : Q;
  tmin : Q;
  Nblob : Z;
  tmax : Q;
  speed : option Q
}.

Definition set_simp (self : Archive) (sim : Simulation) : Archive :=
  {| additional_forces := additional_forces self;
     cfilename := cfilename self; simp := sim; filesize := filesize self;
     dt := dt self; interval := interval self; tmin := tmin self;
     Nblob := Nblob self; tmax := tmax self; speed := speed self |}.

Definition set_speed (self : Archive) (v : Q) : Archive :=
  {| additional_forces := additional_forces self;
     cfilename := cfilename self; simp := simp self;
     filesize := filesize self;
     dt := dt self; interval := interval self; tmin := tmin self;
     Nblob := Nblob self; tmax := tmax self; speed := Some v |}.

Local Open Scope py_scope.

(** [__len__], the method, returns [self.Nblob] as it is. *)
Definition dunder_len : M Archive Z :=
  fun self => (Return (Nblob self), self).

(** [len(self)]: the builtin calls [__len__] and raises [ValueError] when
    the result is negative. *)
Definition len : M Archive Z :=
  n <- dunder_len ;;
  if n <? 0 then raise (ValueError msg_len_negative None) else ret n.

(** [__init__].  The module imports only [Simulation] from [.simulation]
    (line 2), so the name [BINARY_WARNINGS] on line 98 is bound neither in
    the module nor in the builtins: evaluating the argument of [ValueError]
    raises [NameError] before any [ValueError] is built. *)
Definition init (filename : string) (additional_forces : option Forces)
  : result Archive :=
  let body : M unit Archive :=
    cfilename <- encode_ascii filename ;;
    let '(simp, w) :=
      reb_create_simulation_from_binary_with_messages R cfilename in
    match simp with
    | None => raise (NameError "BINARY_WARNINGS")
    | Some sim =>
      if negb (Z.land w 1 =? 0) then raise (NameError "BINARY_WARNINGS")
      else
        match os_path_getsize R filename with
        | None => raise OSError
        | Some filesize =>
          let dt := sim_dt sim in
          let interval := simulationarchive_interval sim in
          let tmin := 0%Q in
          Nblob <- int_of_div (PY3 R)
                     (filesize - simulationarchive_seek_first sim)
                     (simulationarchive_seek_blob sim) ;;
          let tmax := (tmin + interval * inject_Z (Nblob + 1))%Q in
          ret {| additional_forces := additional_forces;
                 cfilename := cfilename; simp := sim; filesize := filesize;
                 dt := dt; interval := interval; tmin := tmin;
                 Nblob := Nblob; tmax := tmax; speed := None |}
        end
    end in
  fst (body tt).

(** [loadFromBlobAndSynchronize] *)
Definition loadFromBlobAndSynchronize (blob : Z) (keep_unsynchronized : Z)
  : M Archive Simulation :=
  fun self =>
    let '(retv, sim) :=
      reb_simulationarchive_load_blob R (simp self) (cfilename self) blob in
    if negb (retv =? 0) then
      (Raise (ValueError msg_load_error (Some retv)), set_simp self sim)
    else
      let sim := set_keep_unsynchronized sim keep_unsynchronized in
      let sim := match additional_forces self with
                 | Some f => set_additional_forces sim (Some f)
                 | None => sim
                 end in
      let sim := set_simulationarchive_filename sim None in
      let sim := integrator_synchronize R sim in
      (Return sim, set_simp self sim).

(** The keys [__getitem__] tells apart: a slice, an integer, anything else. *)
Inductive Key : Type :=
| KSlice
| KInt (key : Z)
| KOther.

(** [__getitem__] *)
Definition getitem (key : Key) : M Archive Simulation :=
  match key with
  | KSlice => raise (AttributeError msg_slicing)
  | KOther => raise (AttributeError msg_integer_index)
  | KInt key =>
    key <- (if key <? 0 then n <- len ;; ret (key + n) else ret key) ;;
    n' <- len ;;
    if key >=? n' then
      self <- get ;;
      raise (IndexError msg_index_out_of_range (Nblob self))
    else loadFromBlobAndSynchronize key 1
  end.

(** [__setitem__] *)
Definition setitem (key : Key) (value : Simulation) : M Archive unit :=
  raise (AttributeError msg_cannot_modify).

(** [__delitem__]: the body is [pass]. *)
Definition delitem (key : Key) : M Archive unit := ret tt.

(** [getBlobJustBefore] *)
Definition getBlobJustBefore (t : Q) : M Archive (Z * Q) :=
  self <- get ;;
  if Qlt_bool (tmax self + dt self) t || Qlt_bool t (tmin self) then
    raise (ValueError msg_outside_baseline None)
  else
    q <- float_div (t - dt self - tmin self)%Q (interval self) ;;
    let bi := py_max0 (Qfloor q) in
    let bt := (tmin self + interval self * inject_Z bi)%Q in
    ret (bi, bt).

Definition mode_known (mode : string) : bool :=
  existsb (String.eqb mode) ["blob"; "close"; "exact"].

(** [getSimulation].  Line 143, [keep_unsynchronized==0], is an expression
    statement: the comparison is evaluated and its value dropped. *)
Definition getSimulation (t : Q) (mode : string) (keep_unsynchronized : Z)
  : M Archive Simulation :=
  if negb (mode_known mode) then raise (AttributeError msg_unknown_mode)
  else
    ' (bi, bt) <- getBlobJustBefore t ;;
    if String.eqb mode "blob" then
      loadFromBlobAndSynchronize bi keep_unsynchronized
    else
      self <- get ;;
      let sim := simp self in
      (if Qlt_bool (sim_t sim) t && Qlt_bool (bt - sim_dt sim) (sim_t sim)
          && (ri_whfast_keep_unsynchronized sim =? 1)
       then ret tt
       else
         fun self =>
           let '(retv, sim) :=
             reb_simulationarchive_load_blob R (simp self) (cfilename self) bi
           in
           if negb (retv =? 0) then
             (Raise (ValueError msg_load_error (Some retv)),
              set_simp self sim)
           else (Return tt, set_simp self sim)) ;;;
      let _ := if String.eqb mode "exact"
               then Some (keep_unsynchronized =? 0) else None in
      fun self =>
        let sim := simp self in
        let sim := set_keep_unsynchronized sim keep_unsynchronized in
        let sim := match additional_forces self with
                   | Some f => set_additional_forces sim (Some f)
                   | None => sim
                   end in
        let sim := set_simulationarchive_filename sim None in
        let exact_finish_time := if String.eqb mode "exact" then 1 else 0 in
        match integrate R sim t exact_finish_time with
        | (Some e, sim') => (Raise e, set_simp self sim')
        | (None, sim') => (Return sim', set_simp self sim')
        end.

(** The generator object made by [__iter__]:
    [for i in range(len(self)): yield self[i]].  The first [next] evaluates
    [range(len(self))], so it raises when [len(self)] does. *)
Inductive iter_pc : Type :=
| IterCreated
| IterLoop (i n : Z)
| IterFinished.


Definition iter_step (i n : Z) : M Archive Simulation * iter_pc :=
  if i <? n then (getitem (KInt i), IterLoop (i + 1) n)
  else (raise StopIteration, IterFinished).

Definition iter_next (g : iter_pc) (self : Archive)
  : result Simulation * Archive * iter_pc :=
  match g with
  | IterCreated =>
    match len self with
    | (Raise e, self0) => (Raise e, self0, IterFinished)
    | (Return n, self0) =>
      let '(c, g') := iter_step 0 n in
      match c self0 with
      | (Return sim, self') => (Return sim, self', g')
      | (Raise e, self') => (Raise e, self', IterFinished)
      end
    end
  | IterLoop i n =>
    let '(c, g') := iter_step i n in
    match c self with
    | (Return sim, self') => (Return sim, self', g')
    | (Raise e, self') => (Raise e, self', IterFinished)
    end
  | IterFinished => (Raise StopIteration, self, IterFinished)
  end.

(** [times.sort()] on the list object at location [l]. *)
Definition sort_in_place {S} (l : loc) : M (Heap * S) unit :=
  fun hs => (Return tt, (heap_set (fst hs) l (list_sort (fst hs l)), snd hs)).

(** The generator object made by [getSimulations].  Calling the function
    runs none of its body; the body starts at the first [next], with
    [times.sort()], and [for t in times] then walks the list object by
    position. *)
Inductive gen_pc : Type :=
| GenCreated
| GenLoop (i : nat)
| GenFinished.

Record SimulationsGen : Type := mkGen {
  gen_times : loc;
  gen_mode : string;
  gen_keep_unsynchronized : Z;
  gen_at : gen_pc
}.

Definition gen_goto (g : SimulationsGen) (pc : gen_pc) : SimulationsGen :=
  {| gen_times := gen_times g; gen_mode := gen_mode g;
     gen_keep_unsynchronized := gen_keep_unsynchronized g; gen_at := pc |}.

Definition getSimulations (times : loc) (mode : string)
  (keep_unsynchronized : Z) : SimulationsGen :=
  {| gen_times := times; gen_mode := mode;
     gen_keep_unsynchronized := keep_unsynchronized; gen_at := GenCreated |}.

Definition gen_step (g : SimulationsGen) (i : nat) (hs : Heap * Archive)
  : result Simulation * (Heap * Archive) * SimulationsGen :=
  match nth_error (fst hs (gen_times g)) i with
  | None => (Raise StopIteration, hs, gen_goto g GenFinished)
  | Some t =>
    match lift_snd (getSimulation t (gen_mode g) (gen_keep_unsynchronized g))
            hs with
    | (Return sim, hs') => (Return sim, hs', gen_goto g (GenLoop (S i)))
    | (Raise e, hs') => (Raise e, hs', gen_goto g GenFinished)
    end
  end.

Definition gen_next (g : SimulationsGen) (hs : Heap * Archive)
  : result Simulation * (Heap * Archive) * SimulationsGen :=
  match gen_at g with
  | GenCreated =>
    match sort_in_place (gen_times g) hs with
    | (_, hs') => gen_step g 0 hs'
    end
  | GenLoop i => gen_step g i hs
  | GenFinished => (Raise StopIteration, hs, g)
  end.

(** [estimateTime], scalar branch.  [try: speed = self.speed / except
    AttributeError:] reads the cached attribute or computes and caches it. *)
Definition get_speed : M Archive Q :=
  self <- get ;;
  match speed self with
  | Some v => ret v
  | None =>
    sim <- getitem (KInt (-1)) ;;
    v <- float_div (sim_t sim) (simulationarchive_walltime sim) ;;
    (fun self => (Return tt, set_speed self v)) ;;;
    ret v
  end.

Definition estimateTime_float (t : Q) (tbefore : option Q) : M Archive Q :=
  v <- get_speed ;;
  ' (bi, bt) <- getBlobJustBefore t ;;
  runtime_estimate <- float_div (t - bt)%Q v ;;
  match tbefore with
  | None => ret runtime_estimate
  | Some tb =>
    x <- float_div (t - bt)%Q v ;;
    y <- float_div (t - tb)%Q v ;;
    ret (py_min x y)
  end.

(** [estimateTime], the loop of the batch branch: the recursive call gets a
    float, so it runs the scalar branch. *)
Fixpoint estimateTime_loop (ts : list Q) (tbefore runtime_estimate : Q)
  : M Archive Q :=
  match ts with
  | [] => ret runtime_estimate
  | _t :: ts' =>
    r <- estimateTime_float _t (Some tbefore) ;;
    estimateTime_loop ts' _t (runtime_estimate + r)%Q
  end.

(** The argument of [estimateTime]: a float, on which [iter(t)] raises
    [TypeError], or a list object. *)
Inductive TimeArg : Type :=
| TFloat (t : Q)
| TList (l : loc).

(** [estimateTime] *)
Definition estimateTime (t : TimeArg) (tbefore : option Q)
  : M (Heap * Archive) Q :=
  match t with
  | TList l =>
    sort_in_place l ;;;
    hs <- get ;;
    lift_snd (estimateTime_loop (fst hs l) 0 0)
  | TFloat t => lift_snd (estimateTime_float t tbefore)
  end.

End SimulationArchive.

Arguments Simulation : clear implicits.
Arguments Runtime : clear implicits.
Arguments Archive : clear implicits.

(** ** A small runtime to evaluate the model on

    An archive of five checkpoints: blob [i] holds the state at time
    [interval * i]; loading any other index returns the error code 1. *)

Definition sample_sim (dt interval : Q) : Simulation Z unit :=
  {| sim_t := 0; sim_dt := dt; simulationarchive_interval := interval;
     simulationarchive_seek_first := 100; simulationarchive_seek_blob := 20;
     simulationarchive_walltime := 0; ri_whfast_keep_unsynchronized := 0;
     sim_additional_forces := None;
     simulationarchive_filename := Some "archive.bin"; sim_body := 0 |}.

Definition sample_load_blob (sim : Simulation Z unit) (f : string) (blob : Z)
  : Z * Simulation Z unit :=
  if (0 <=? blob) && (blob <? 5) then
    (0, {| sim_t := simulationarchive_interval sim * inject_Z blob;
           sim_dt := sim_dt sim;
           simulationarchive_interval := simulationarchive_interval sim;
           simulationarchive_seek_first := simulationarchive_seek_first sim;
           simulationarchive_seek_blob := simulationarchive_seek_blob sim;
           simulationarchive_walltime := inject_Z (2 * blob);
           ri_whfast_keep_unsynchronized := 0;
           sim_additional_forces := None;
           simulationarchive_filename := Some f;
           sim_body := blob |})
  else (1, sim).

Definition sample_integrate (sim : Simulation Z unit) (t : Q) (exact : Z)
  : option exn * Simulation Z unit :=
  (None,
   {| sim_t := t; sim_dt := sim_dt sim;
      simulationarchive_interval := simulationarchive_interval sim;
      simulationarchive_seek_first := simulationarchive_seek_first sim;
      simulationarchive_seek_blob := simulationarchive_seek_blob sim;
      simulationarchive_walltime := simulationarchive_walltime sim;
      ri_whfast_keep_unsynchronized := ri_whfast_keep_unsynchronized sim;
      sim_additional_forces := sim_additional_forces sim;
      simulationarchive_filename := simulationarchive_filename sim;
      sim_body := sim_body sim |}).

Definition sample_runtime (py3 : bool) (size : Z) (w : Z) (dt interval : Q)
  : Runtime Z unit :=
  {| PY3 := py3;
     os_path_getsize := fun _ => Some size;
     reb_create_simulation_from_binary_with_messages :=
       fun _ => (Some (sample_sim dt interval), w);
     reb_simulationarchive_load_blob := sample_load_blob;
     integrator_synchronize := fun sim => sim;
     integrate := sample_integrate |}.

(** The archive [__init__] builds over [sample_runtime py3 200 0 dt interval]. *)
Definition sample_archive (dt interval : Q) : Archive Z unit :=
  {| additional_forces := None; cfilename := "archive.bin";
     simp := sample_sim dt interval; filesize := 200;
     dt := dt; interval := interval; tmin := 0; Nblob := 5;
     tmax := 0 + interval * inject_Z (5 + 1); speed := None |}.

Definition std_runtime : Runtime Z unit := sample_runtime true 200 0 (1#4) 10.
Definition std_archive : Archive Z unit := sample_archive (1#4) 10.



(** The cached index scalars of an archive. *)
Definition index_scalars {Body Forces} (a : Archive Body Forces)
  : Z * Q * Q * Q * Z * Q :=
  (filesize a, dt a, interval a, tmin a, Nblob a, tmax a).



(** A heap in which every list is empty. *)
Definition empty_heap : Heap := fun _ => [].


(** Closes a goal whose premise equates a raised outcome with a return. *)
Ltac raised_not_returned :=
  cbv [raise]; cbv beta iota; cbn [fst snd]; intros;
  match goal with
  | H : Raise _ = Return _ |- _ => discriminate H
  end.

(** A method keeps the view [f] of the archive when the archive it leaves
    behind has the [f] of the archive it started from, on return and on
    raise. *)
Definition keeps_field {Body Forces X A} (f : Archive Body Forces -> X)
  (c : M (Archive Body Forces) A) : Prop :=
  forall a, f (snd (c a)) = f a.

(** What the constructor stores besides the handle and the index scalars. *)
Definition archive_config {Body Forces} (a : Archive Body Forces)
  : option Forces * string :=
  (additional_forces a, cfilename a).





(** The handle as lines 144-147 of [getSimulation] prepare it for the
    integrator (the same three writes as in [loadFromBlobAndSynchronize]). *)
Definition prepared {Body Forces} (a : Archive Body Forces)
  (sim : Simulation Body Forces) (keep_unsynchronized : Z)
  : Simulation Body Forces :=
  set_simulationarchive_filename
    (match additional_forces a with
     | Some f =>
       set_additional_forces
         (set_keep_unsynchronized sim keep_unsynchronized) (Some f)
     | None => set_keep_unsynchronized sim keep_unsynchronized
     end) None.



(** The three bookkeeping fields the archive writes after a load. *)
Definition bookkeeping {Body Forces} (sim : Simulation Body Forces)
  : Z * option Forces * option string :=
  (ri_whfast_keep_unsynchronized sim, sim_additional_forces sim,
   simulationarchive_filename sim).

(** The archive [__init__] builds over [sample_runtime true 300 0 (1#4) 10]:
    the file size announces ten blobs, of which the sample runtime can load
    five. *)
Definition oversized_archive : Archive Z unit :=
  {| additional_forces := None; cfilename := "archive.bin";
     simp := sample_sim (1 # 4) 10; filesize := 300;
     dt := (1 # 4)%Q; interval := 10%Q; tmin := 0%Q; Nblob := 10;
     tmax := (0 + 10 * inject_Z (10 + 1))%Q; speed := None |}.

(** A runtime over the sample blobs whose reconstructed state and file
    size are given. *)
Definition custom_runtime (size : option Z) (sim : Simulation Z unit) (w : Z)
  : Runtime Z unit :=
  {| PY3 := true;
     os_path_getsize := fun _ => size;
     reb_create_simulation_from_binary_with_messages :=
       fun _ => (Some sim, w);
     reb_simulationarchive_load_blob := sample_load_blob;
     integrator_synchronize := fun sim => sim;
     integrate := sample_integrate |}.

(** The state of a binary file saved without an archive: no interval and
    no seek offsets. *)
Definition plain_sim : Simulation Z unit :=
  {| sim_t := 0; sim_dt := (1 # 4)%Q; simulationarchive_interval := 0;
     simulationarchive_seek_first := 0; simulationarchive_seek_blob := 0;
     simulationarchive_walltime := 0; ri_whfast_keep_unsynchronized := 0;
     sim_additional_forces := None;
     simulationarchive_filename := None; sim_body := 0 |}.

(** The archive [__init__] builds over [sample_runtime true 120 0 (1#4) 10]:
    one blob, the one at time 0 with no recorded wall time. *)
Definition one_blob_archive : Archive Z unit :=
  {| additional_forces := None; cfilename := "archive.bin";
     simp := sample_sim (1 # 4) 10; filesize := 120;
     dt := (1 # 4)%Q; interval := 10%Q; tmin := 0%Q; Nblob := 1;
     tmax := (0 + 10 * inject_Z (1 + 1))%Q; speed := None |}.



(** ** Properties *)

Example init_std_archive :
  init std_runtime "archive.bin" None = Return std_archive.
Proof. reflexivity. Qed.

(** *** Arithmetic helpers *)

Lemma Qlt_bool_iff (x y : Q) : Qlt_bool x y = true <-> (x < y)%Q.
Proof.
  unfold Qlt_bool. rewrite negb_true_iff.
  split; intro H.
  - apply Qnot_le_lt. intro Hle. apply Qle_bool_iff in Hle. congruence.
  - destruct (Qle_bool y x) eqn:E; [|reflexivity].
    apply Qle_bool_iff in E. exfalso. apply (Qlt_not_le _ _ H E).
Qed.



Lemma land_1_testbit (w : Z) : (Z.land w 1 =? 0) = negb (Z.testbit w 0).
Proof.
  change 1 with (Z.ones 1). rewrite Z.land_ones by lia.
  change (2 ^ 1) with 2. rewrite <- Z.bit0_mod.
  destruct (Z.testbit w 0); reflexivity.
Qed.




(** *** The time resolver *)




Lemma getBlobJustBefore_state {Body Forces} (a : Archive Body Forces) (t : Q) :
  snd (getBlobJustBefore t a) = a.
Proof.
  unfold getBlobJustBefore, bind, get, float_div, ret, raise.
  destruct (_ || _); [reflexivity|].
  destruct (Qeq_bool _ _); reflexivity.
Qed.



(** *** The reconstructor in exact mode *)

(** C1.  In exact mode the flag written to the handle on line 144 is the
    caller's [keep_unsynchronized]: line 143 compares it with 0 and assigns
    nothing.  So whenever the integrator leaves the flag alone, a call that
    returns leaves the handle's flag equal to the value the caller passed
    (1 when the caller passed 1), not 0. *)
Theorem getSimulation_exact_flag_is_argument {Body Forces}
  (R : Runtime Body Forces) (a : Archive Body Forces) (t : Q)
  (keep_unsynchronized : Z) (sim : Simulation Body Forces) :
  (forall s t' e,
     ri_whfast_keep_unsynchronized (snd (integrate R s t' e)) =
     ri_whfast_keep_unsynchronized s) ->
  fst (getSimulation R t "exact" keep_unsynchronized a) = Return sim ->
  ri_whfast_keep_unsynchronized sim = keep_unsynchronized /\
  ri_whfast_keep_unsynchronized
    (simp (snd (getSimulation R t "exact" keep_unsynchronized a))) =
  keep_unsynchronized.
Proof.
  intros Hint.
  cbv [getSimulation mode_known existsb String.eqb Ascii.eqb Bool.eqb negb
       orb bind get].
  destruct (getBlobJustBefore t a) as [[[bi bt]|e] a1]; [|simpl; discriminate].
  match goal with
  | |- context [ (if ?c then ret tt else ?k) a1 ] =>
    destruct ((if c then ret tt else k) a1) as [[[]|e] a2]
  end; [|simpl; discriminate].
  match goal with
  | |- context [ integrate R ?x t 1 ] => set (s := x)
  end.
  assert (Hs : ri_whfast_keep_unsynchronized s = keep_unsynchronized).
  { subst s. unfold set_simulationarchive_filename. simpl.
    destruct (additional_forces a2); reflexivity. }
  specialize (Hint s t 1).
  destruct (integrate R s t 1) as [[e|] s']; [simpl; discriminate|].
  simpl in *. intro H. inversion H; subst sim.
  split; congruence.
Qed.

Lemma getSimulation_exact_flag_is_argument_witness :
  exists sim,
    fst (getSimulation std_runtime 23 "exact" 1 std_archive) = Return sim /\
    ri_whfast_keep_unsynchronized sim = 1 /\
    ri_whfast_keep_unsynchronized
      (simp (snd (getSimulation std_runtime 23 "exact" 1 std_archive))) = 1.
Proof.
  eexists. split; [reflexivity|].
  apply (getSimulation_exact_flag_is_argument std_runtime std_archive 23 1);
    [intros s t' e; reflexivity | reflexivity].
Defined.

(** *** Opening an archive *)

(** C3.  When the engine reports a bitmask with bit 0 set, [__init__] stops
    at line 98, whatever the file size and the seek offsets are (none of them
    has been read yet); what it raises there is [NameError], because
    [BINARY_WARNINGS] is not bound in the module, and not the [ValueError]
    the line was written to raise.  When bit 0 is clear the other bits play
    no part: [__init__] returns an archive as soon as the file size can be
    read and the blob stride is not zero. *)
Theorem init_warning_bitmask {Body Forces} (R : Runtime Body Forces)
  (filename : string) (forces : option Forces)
  (simp0 : option (Simulation Body Forces)) (w : Z) :
  all_ascii filename = true ->
  reb_create_simulation_from_binary_with_messages R filename = (simp0, w) ->
  (Z.testbit w 0 = true ->
   init R filename forces = Raise (NameError "BINARY_WARNINGS")) /\
  (Z.testbit w 0 = false ->
   forall sim size,
     simp0 = Some sim ->
     os_path_getsize R filename = Some size ->
     simulationarchive_seek_blob sim <> 0 ->
     exists a, init R filename forces = Return a /\ simp a = sim).
Proof.
  intros Ha Hc. cbv [init encode_ascii bind]. rewrite Ha.
  cbv [ret]. rewrite Hc. split.
  - intro Hb. destruct simp0 as [sim|]; [|reflexivity].
    rewrite land_1_testbit, Hb. reflexivity.
  - intros Hb sim size -> Hs Hn.
    rewrite land_1_testbit, Hb. cbv [negb].
    rewrite Hs. cbv [int_of_div].
    destruct (Z.eqb_spec (simulationarchive_seek_blob sim) 0) as [E|E];
      [contradiction|].
    eexists. split; reflexivity.
Qed.

Lemma init_warning_bitmask_witness :
  init (sample_runtime true 200 1 (1 # 4) 10) "archive.bin" None =
    Raise (NameError "BINARY_WARNINGS") /\
  init (sample_runtime true 200 3 (1 # 4) 10) "archive.bin" None =
    Raise (NameError "BINARY_WARNINGS") /\
  exists a,
    init (sample_runtime true 200 6 (1 # 4) 10) "archive.bin" None =
      Return a /\ simp a = sample_sim (1 # 4) 10.
Proof.
  split; [|split].
  - apply (init_warning_bitmask (sample_runtime true 200 1 (1 # 4) 10)
             "archive.bin" None (Some (sample_sim (1 # 4) 10)) 1);
      reflexivity.
  - apply (init_warning_bitmask (sample_runtime true 200 3 (1 # 4) 10)
             "archive.bin" None (Some (sample_sim (1 # 4) 10)) 3);
      reflexivity.
  - apply (init_warning_bitmask (sample_runtime true 200 6 (1 # 4) 10)
             "archive.bin" None (Some (sample_sim (1 # 4) 10)) 6
             eq_refl eq_refl) with (size := 200);
      [reflexivity | reflexivity | reflexivity | discriminate].
Defined.

(** *** The read-only view *)

(** C4.  An index assignment raises [AttributeError] with the read-only
    message and leaves the archive as it was.  An index deletion leaves the
    archive as it was too, but raises nothing: the body of [__delitem__] is
    [pass], so [del sa[i]] returns normally. *)
Theorem setitem_raises_delitem_passes {Body Forces}
  (a : Archive Body Forces) (key : Key) (value : Simulation Body Forces) :
  setitem key value a = (Raise (AttributeError msg_cannot_modify), a) /\
  delitem key a = (Return tt, a).
Proof. split; reflexivity. Qed.

(** *** Integer indexing *)

Lemma len_value {Body Forces} (a : Archive Body Forces) :
  len a = if Nblob a <? 0
          then (Raise (ValueError msg_len_negative None), a)
          else (Return (Nblob a), a).
Proof.
  cbv [len dunder_len bind raise ret]. destruct (Nblob a <? 0); reflexivity.
Qed.

Lemma getitem_int {Body Forces} (R : Runtime Body Forces)
  (a : Archive Body Forces) (key : Z) :
  getitem R (KInt key) a =
    if Nblob a <? 0 then (Raise (ValueError msg_len_negative None), a)
    else
      let k := if key <? 0 then key + Nblob a else key in
      if k >=? Nblob a
      then (Raise (IndexError msg_index_out_of_range (Nblob a)), a)
      else loadFromBlobAndSynchronize R k 1 a.
Proof.
  cbv [getitem bind len dunder_len get raise ret].
  destruct (Nblob a <? 0) eqn:E; destruct (key <? 0);
    cbv beta iota zeta; rewrite ?E; cbv beta iota; try reflexivity;
    destruct (_ >=? _); reflexivity.
Qed.







(** *** Blob mode against direct indexing *)










(** *** The cached index scalars *)

Section Frame.

Context {Body Forces : Type}.
Variable R : Runtime Body Forces.






Lemma keeps_set_simp (a : Archive Body Forces) (sim : Simulation Body Forces) :
  index_scalars (set_simp a sim) = index_scalars a.
Proof. reflexivity. Qed.

Lemma keeps_set_speed (a : Archive Body Forces) (v : Q) :
  index_scalars (set_speed a v) = index_scalars a.
Proof. reflexivity. Qed.















End Frame.





(** *** The runtime estimator *)








Lemma heap_set_same (h : Heap) (l : loc) (v : list Q) : heap_set h l v l = v.
Proof. unfold heap_set. rewrite Nat.eqb_refl. reflexivity. Qed.

Lemma heap_set_other (h : Heap) (l l' : loc) (v : list Q) :
  l' <> l -> heap_set h l v l' = h l'.
Proof.
  intro H. unfold heap_set. destruct (Nat.eqb_spec l' l); [contradiction|].
  reflexivity.
Qed.

Lemma estimateTime_batch_unfold {Body Forces} (R : Runtime Body Forces)
  (l : loc) (tbefore : option Q) (h : Heap) (a : Archive Body Forces) :
  estimateTime R (TList l) tbefore (h, a) =
    (fst (estimateTime_loop R (list_sort (h l)) 0 0 a),
     (heap_set h l (list_sort (h l)),
      snd (estimateTime_loop R (list_sort (h l)) 0 0 a))).
Proof.
  cbv [estimateTime bind sort_in_place get lift_snd]. cbn [fst snd].
  rewrite heap_set_same.
  destruct (estimateTime_loop R (list_sort (h l)) 0 0 a); reflexivity.
Qed.





(** *** The estimator and the shared handle *)



Lemma estimateTime_float_after_speed {Body Forces} (R : Runtime Body Forces)
  (a : Archive Body Forces) (t : Q) (tbefore : option Q) :
  snd (estimateTime_float R t tbefore a) = snd (get_speed R a) /\
  (forall r, fst (estimateTime_float R t tbefore a) = Return r ->
             exists v, fst (get_speed R a) = Return v).
Proof.
  remember (estimateTime_float R t tbefore a) as X eqn:EX.
  unfold estimateTime_float in EX. unfold bind at 1 in EX.
  destruct (get_speed R a) as [[v|e] a1];
    [|subst X; split; [reflexivity|raised_not_returned]].
  cbn [fst snd]. split; [|intros; eexists; reflexivity].
  subst X. unfold bind at 1.
  pose proof (getBlobJustBefore_state a1 t) as Hb.
  destruct (getBlobJustBefore t a1) as [[[bi bt]|e] a2]; cbn in Hb; subst a2;
    [|reflexivity].
  cbv [bind float_div ret raise].
  destruct (Qeq_bool v 0); [reflexivity|].
  destruct tbefore; reflexivity.
Qed.




Lemma list_sort_nonempty (l : list Q) : l <> [] -> list_sort l <> [].
Proof.
  destruct l as [|x l]; [contradiction|]. intros _. simpl.
  destruct (list_sort l) as [|y l']; simpl; [discriminate|].
  destruct (Qle_bool x y); discriminate.
Qed.




(** *** In-place sorting of the caller's list *)

Lemma insert_sorted_perm (x : Q) (l : list Q) :
  Permutation (x :: l) (insert_sorted x l).
Proof.
  induction l as [|y l IH]; simpl; [apply Permutation_refl|].
  destruct (Qle_bool x y); [apply Permutation_refl|].
  eapply perm_trans; [apply perm_swap|]. apply perm_skip, IH.
Qed.

Lemma list_sort_perm (l : list Q) : Permutation l (list_sort l).
Proof.
  induction l as [|x l IH]; simpl; [apply perm_nil|].
  eapply perm_trans; [apply perm_skip, IH|]. apply insert_sorted_perm.
Qed.

Lemma insert_sorted_hd (x y : Q) (l : list Q) :
  (y <= x)%Q -> HdRel Qle y l -> HdRel Qle y (insert_sorted x l).
Proof.
  intros Hyx Hl. destruct l as [|z l]; simpl; [constructor; exact Hyx|].
  destruct (Qle_bool x z); constructor; [exact Hyx|].
  inversion Hl; assumption.
Qed.

Lemma insert_sorted_sorted (x : Q) (l : list Q) :
  Sorted Qle l -> Sorted Qle (insert_sorted x l).
Proof.
  induction l as [|y l IH]; intro Hs; simpl.
  - constructor; constructor.
  - inversion Hs as [|y' l' Hs' Hhd]; subst.
    destruct (Qle_bool x y) eqn:E.
    + constructor; [exact Hs|]. constructor. apply Qle_bool_iff, E.
    + assert (Hyx : (y <= x)%Q).
      { apply Qlt_le_weak, Qlt_bool_iff. unfold Qlt_bool. rewrite E.
        reflexivity. }
      constructor; [apply IH, Hs'|]. apply insert_sorted_hd; assumption.
Qed.

Lemma list_sort_sorted (l : list Q) : Sorted Qle (list_sort l).
Proof.
  induction l as [|x l IH]; simpl; [constructor|].
  apply insert_sorted_sorted, IH.
Qed.

Lemma gen_step_heap {Body Forces} (R : Runtime Body Forces)
  (g : SimulationsGen) (i : nat) (h : Heap) (a : Archive Body Forces) :
  fst (snd (fst (gen_step R g i (h, a)))) = h /\
  gen_at (snd (gen_step R g i (h, a))) <> GenCreated.
Proof.
  unfold gen_step. cbn [fst].
  destruct (nth_error (h (gen_times g)) i) as [t|];
    [|split; [reflexivity|discriminate]].
  cbv [lift_snd]. cbn [fst snd].
  destruct (getSimulation R t (gen_mode g) (gen_keep_unsynchronized g) a)
    as [[sim|e] a1]; split; try reflexivity; discriminate.
Qed.

(** C10.  Calling [getSimulations] only builds the generator: it takes no
    heap and starts at [GenCreated].  The first [next] replaces the caller's
    list by its sorted version and touches no other list; every later
    [next] leaves the heap as it is, so the list stays sorted.  The batch
    form of [estimateTime] replaces the caller's list by its sorted version
    during the call, whether it returns or raises.  The sorted version is in
    ascending order and holds the same times. *)
Theorem caller_list_sorted_in_place {Body Forces} (R : Runtime Body Forces)
  (times : loc) (mode : string) (keep : Z) (tbefore : option Q) (h : Heap)
  (a : Archive Body Forces) :
  gen_at (getSimulations times mode keep) = GenCreated /\
  gen_times (getSimulations times mode keep) = times /\
  (let h' := fst (snd (fst (gen_next R (getSimulations times mode keep)
                              (h, a)))) in
   h' times = list_sort (h times) /\
   (forall l, l <> times -> h' l = h l)) /\
  gen_at (snd (gen_next R (getSimulations times mode keep) (h, a))) <>
    GenCreated /\
  (forall g h1 a1, gen_at g <> GenCreated ->
     fst (snd (fst (gen_next R g (h1, a1)))) = h1 /\
     gen_at (snd (gen_next R g (h1, a1))) <> GenCreated) /\
  (let h' := fst (snd (estimateTime R (TList times) tbefore (h, a))) in
   h' times = list_sort (h times) /\
   (forall l, l <> times -> h' l = h l)) /\
  Sorted Qle (list_sort (h times)) /\
  Permutation (h times) (list_sort (h times)).
Proof.
  split; [reflexivity|]. split; [reflexivity|].
  split; [|split; [|split; [|split; [|split]]]].
  - cbv zeta. unfold gen_next. cbn [gen_at getSimulations].
    cbv [sort_in_place]. cbn [fst snd gen_times].
    rewrite (proj1 (gen_step_heap R _ 0 _ a)).
    split; [apply heap_set_same|]. intros l Hl. apply heap_set_other, Hl.
  - unfold gen_next. cbn [gen_at getSimulations].
    cbv [sort_in_place]. cbn [fst snd gen_times].
    apply gen_step_heap.
  - intros g h1 a1 Hg. unfold gen_next.
    destruct (gen_at g) as [|i|] eqn:E; [contradiction| |].
    + apply gen_step_heap.
    + split; [reflexivity|]. cbn [fst snd]. rewrite E. discriminate.
  - cbv zeta. rewrite estimateTime_batch_unfold. cbn [fst snd].
    split; [apply heap_set_same|]. intros l Hl. apply heap_set_other, Hl.
  - apply list_sort_sorted.
  - apply list_sort_perm.
Qed.

Lemma caller_list_sorted_in_place_witness :
  let h := heap_set empty_heap 0%nat [23%Q; 7%Q; 41%Q] in
  let g := getSimulations 0%nat "close" 1 in
  gen_at g = GenCreated /\
  fst (snd (fst (gen_next std_runtime g (h, std_archive)))) 0%nat =
    [7%Q; 23%Q; 41%Q] /\
  fst (snd (estimateTime std_runtime (TList 0%nat) None (h, std_archive)))
    0%nat = [7%Q; 23%Q; 41%Q] /\
  fst (snd (fst (gen_next std_runtime g (h, std_archive)))) 1%nat = h 1%nat.
Proof.
  cbv zeta.
  destruct (caller_list_sorted_in_place std_runtime 0%nat "close" 1 None
              (heap_set empty_heap 0%nat [23%Q; 7%Q; 41%Q]) std_archive)
    as [H1 [_ [[H2 H3] [_ [_ [[H4 _] _]]]]]].
  split; [exact H1|]. split; [rewrite H2; reflexivity|].
  split; [rewrite H4; reflexivity|].
  apply H3. discriminate.
Defined.

(** ** Further properties of the methods *)

(** *** Bounds of the resolver *)








(** *** What the methods leave alone *)

Section FieldFrame.

Context {Body Forces X : Type}.
Variable R : Runtime Body Forces.
Variable f : Archive Body Forces -> X.
Hypothesis f_set_simp : forall a sim, f (set_simp a sim) = f a.

Lemma keeps_field_bind {A B} (c : M (Archive Body Forces) A)
  (k : A -> M (Archive Body Forces) B) :
  keeps_field f c -> (forall x, keeps_field f (k x)) ->
  keeps_field f (bind c k).
Proof.
  intros Hc Hk a. unfold bind. specialize (Hc a).
  destruct (c a) as [[x|e] a1]; cbn [snd] in *.
  - rewrite Hk. exact Hc.
  - exact Hc.
Qed.

Lemma keeps_field_load (blob keep : Z) :
  keeps_field f (loadFromBlobAndSynchronize R blob keep).
Proof.
  intro a. unfold loadFromBlobAndSynchronize.
  destruct (reb_simulationarchive_load_blob R _ _ _) as [retv sim].
  destruct (negb _); apply f_set_simp.
Qed.

Lemma keeps_field_getitem (key : Key) : keeps_field f (getitem R key).
Proof.
  destruct key as [|key|]; try (intro a; reflexivity).
  intro a. rewrite getitem_int.
  destruct (Nblob a <? 0); [reflexivity|]. cbv zeta.
  destruct (_ >=? _); [reflexivity|apply keeps_field_load].
Qed.

Lemma keeps_field_getBlobJustBefore (t : Q) :
  keeps_field f (@getBlobJustBefore Body Forces t).
Proof. intro a. rewrite getBlobJustBefore_state. reflexivity. Qed.

Lemma keeps_field_getSimulation (t : Q) (mode : string) (keep : Z) :
  keeps_field f (getSimulation R t mode keep).
Proof.
  unfold getSimulation.
  destruct (negb (mode_known mode)); [intro a; reflexivity|].
  apply keeps_field_bind; [apply keeps_field_getBlobJustBefore|].
  intros [bi bt].
  destruct (String.eqb mode "blob"); [apply keeps_field_load|].
  apply keeps_field_bind; [intro a; reflexivity|]. intro self.
  apply keeps_field_bind.
  - destruct (_ && _); [intro a; reflexivity|].
    intro a.
    destruct (reb_simulationarchive_load_blob R _ _ _) as [retv sim].
    destruct (negb _); apply f_set_simp.
  - intros _ a. cbv zeta.
    destruct (integrate R _ _ _) as [[e|] sim']; apply f_set_simp.
Qed.

Lemma keeps_field_iter_next (g : iter_pc) (a : Archive Body Forces) :
  f (snd (fst (iter_next R g a))) = f a.
Proof.
  assert (H : forall i n,
             f (snd (fst (
               let '(c, g') := iter_step R i n in
               match c a with
               | (Return sim, self') => (Return sim, self', g')
               | (Raise e, self') => (Raise e, self', IterFinished)
               end))) = f a).
  { intros i n. unfold iter_step. destruct (i <? n).
    - pose proof (keeps_field_getitem (KInt i) a) as K.
      destruct (getitem R (KInt i) a) as [[sim|e] a1]; exact K.
    - reflexivity. }
  destruct g as [|i n|]; [|apply H|reflexivity].
  cbn [iter_next]. rewrite len_value.
  destruct (Nblob a <? 0); [reflexivity|apply H].
Qed.

Lemma keeps_field_gen_next (g : SimulationsGen) (h : Heap)
  (a : Archive Body Forces) :
  f (snd (snd (fst (gen_next R g (h, a))))) = f a.
Proof.
  assert (H : forall i h0,
             f (snd (snd (fst (gen_step R g i (h0, a))))) = f a).
  { intros i h0. unfold gen_step. cbn [fst].
    destruct (nth_error (h0 (gen_times g)) i) as [t|]; [|reflexivity].
    pose proof (keeps_field_getSimulation t (gen_mode g)
                  (gen_keep_unsynchronized g) a) as K.
    cbv [lift_snd]. cbn [fst snd].
    destruct (getSimulation R t _ _ a) as [[sim|e] a1]; exact K. }
  unfold gen_next. destruct (gen_at g) as [|i|].
  - cbv [sort_in_place]. cbn [fst snd]. apply H.
  - apply H.
  - reflexivity.
Qed.

Hypothesis f_set_speed : forall a v, f (set_speed a v) = f a.

Lemma keeps_field_get_speed : keeps_field f (get_speed R).
Proof.
  unfold get_speed. apply keeps_field_bind; [intro a; reflexivity|].
  intro self. destruct (speed self); [intro a; reflexivity|].
  apply keeps_field_bind; [apply keeps_field_getitem|]. intro sim.
  apply keeps_field_bind.
  { intro a. unfold float_div. destruct (Qeq_bool _ _); reflexivity. }
  intro v. apply keeps_field_bind; [intro a; apply f_set_speed|].
  intros _ a. reflexivity.
Qed.

Lemma keeps_field_estimateTime_float (t : Q) (tbefore : option Q) :
  keeps_field f (estimateTime_float R t tbefore).
Proof.
  intro a.
  rewrite (proj1 (estimateTime_float_after_speed R a t tbefore)).
  apply keeps_field_get_speed.
Qed.

Lemma keeps_field_estimateTime_loop (ts : list Q) (tbefore acc : Q) :
  keeps_field f (estimateTime_loop R ts tbefore acc).
Proof.
  revert tbefore acc. induction ts as [|t ts IH]; intros tbefore acc.
  - intro a. reflexivity.
  - simpl. apply keeps_field_bind; [apply keeps_field_estimateTime_float|].
    intro r. apply IH.
Qed.

Lemma keeps_field_estimateTime (t : TimeArg) (tbefore : option Q) (h : Heap)
  (a : Archive Body Forces) :
  f (snd (snd (estimateTime R t tbefore (h, a)))) = f a.
Proof.
  destruct t as [t|l].
  - cbv [estimateTime lift_snd]. cbn [fst snd].
    pose proof (keeps_field_estimateTime_float t tbefore a) as K.
    destruct (estimateTime_float R t tbefore a) as [r a1]. exact K.
  - rewrite estimateTime_batch_unfold. cbn [snd].
    apply keeps_field_estimateTime_loop.
Qed.

End FieldFrame.

(** X3.  No method changes the forces callback or the file name stored at
    open, whether it returns or raises; and the methods that reconstruct a
    state ([__getitem__], [getSimulation], the resolver, iteration and
    [getSimulations]) never change the cached speed either, so a load never
    invalidates the estimator's cache. *)
Theorem methods_keep_config_and_speed {Body Forces}
  (R : Runtime Body Forces) :
  ((forall key, keeps_field archive_config (getitem R key)) /\
   (forall t mode keep,
      keeps_field archive_config (getSimulation R t mode keep)) /\
   (forall g a,
      archive_config (snd (fst (iter_next R g a))) = archive_config a) /\
   (forall g h a,
      archive_config (snd (snd (fst (gen_next R g (h, a))))) =
      archive_config a) /\
   (forall t tbefore h a,
      archive_config (snd (snd (estimateTime R t tbefore (h, a)))) =
      archive_config a)) /\
  ((forall key, keeps_field speed (getitem R key)) /\
   (forall t mode keep, keeps_field speed (getSimulation R t mode keep)) /\
   (forall g a, speed (snd (fst (iter_next R g a))) = speed a) /\
   (forall g h a,
      speed (snd (snd (fst (gen_next R g (h, a))))) = speed a)).
Proof.
  assert (Hc : forall (a : Archive Body Forces) sim,
             archive_config (set_simp a sim) = archive_config a)
    by reflexivity.
  assert (Hc' : forall (a : Archive Body Forces) v,
             archive_config (set_speed a v) = archive_config a)
    by reflexivity.
  assert (Hs : forall (a : Archive Body Forces) sim,
             speed (set_simp a sim) = speed a)
    by reflexivity.
  split.
  - split; [intro; apply keeps_field_getitem, Hc|].
    split; [intros; apply keeps_field_getSimulation, Hc|].
    split; [intros; apply keeps_field_iter_next, Hc|].
    split; [intros; apply keeps_field_gen_next, Hc|].
    intros; apply keeps_field_estimateTime; assumption.
  - split; [intro; apply keeps_field_getitem, Hs|].
    split; [intros; apply keeps_field_getSimulation, Hs|].
    split; [intros; apply keeps_field_iter_next, Hs|].
    intros; apply keeps_field_gen_next, Hs.
Qed.

(** *** The returned state and the handle *)



(** *** The two integrating modes *)







(** *** Loading a blob *)

Example init_oversized_archive :
  init (sample_runtime true 300 0 (1 # 4) 10) "archive.bin" None =
  Return oversized_archive.
Proof. reflexivity. Qed.

Lemma loadFromBlobAndSynchronize_cases {Body Forces}
  (R : Runtime Body Forces) (a : Archive Body Forces) (blob keep retv : Z)
  (sim : Simulation Body Forces) :
  reb_simulationarchive_load_blob R (simp a) (cfilename a) blob =
    (retv, sim) ->
  loadFromBlobAndSynchronize R blob keep a =
    if negb (retv =? 0)
    then (Raise (ValueError msg_load_error (Some retv)), set_simp a sim)
    else (Return (integrator_synchronize R (prepared a sim keep)),
          set_simp a (integrator_synchronize R (prepared a sim keep))).
Proof.
  intro H. unfold loadFromBlobAndSynchronize. rewrite H. reflexivity.
Qed.



Lemma bookkeeping_prepared {Body Forces} (a : Archive Body Forces)
  (sim : Simulation Body Forces) (keep : Z) :
  ri_whfast_keep_unsynchronized (prepared a sim keep) = keep /\
  simulationarchive_filename (prepared a sim keep) = None /\
  (forall f, additional_forces a = Some f ->
             sim_additional_forces (prepared a sim keep) = Some f).
Proof.
  unfold prepared. destruct (additional_forces a) as [g|]; cbn.
  - split; [reflexivity|]. split; [reflexivity|]. intros f E. exact E.
  - split; [reflexivity|]. split; [reflexivity|]. intros f E. discriminate E.
Qed.

(** X8.  Suppose synchronizing and integrating leave the keep flag, the
    forces slot and the auto-write target of the handle alone.  Then every
    state that [__getitem__] or [getSimulation] returns has its auto-write
    target cleared, carries the archive's forces callback when one was
    given at open, and has the keep flag the call was given (1 for
    [__getitem__]). *)
Theorem returned_state_bookkeeping {Body Forces} (R : Runtime Body Forces)
  (a : Archive Body Forces) (sim : Simulation Body Forces) :
  (forall s, bookkeeping (integrator_synchronize R s) = bookkeeping s) ->
  (forall s t e, bookkeeping (snd (integrate R s t e)) = bookkeeping s) ->
  (forall key,
     fst (getitem R key a) = Return sim ->
     ri_whfast_keep_unsynchronized sim = 1 /\
     simulationarchive_filename sim = None /\
     (forall f, additional_forces a = Some f ->
                sim_additional_forces sim = Some f)) /\
  (forall t mode keep,
     fst (getSimulation R t mode keep a) = Return sim ->
     ri_whfast_keep_unsynchronized sim = keep /\
     simulationarchive_filename sim = None /\
     (forall f, additional_forces a = Some f ->
                sim_additional_forces sim = Some f)).
Proof.
  intros Hsync Hint.
  assert (Hbk : forall (s s' : Simulation Body Forces) (af : Archive Body Forces)
                       keep,
             bookkeeping s' = bookkeeping (prepared af s keep) ->
             ri_whfast_keep_unsynchronized s' = keep /\
             simulationarchive_filename s' = None /\
             (forall f, additional_forces af = Some f ->
                        sim_additional_forces s' = Some f)).
  { intros s s' af keep E.
    destruct (bookkeeping_prepared af s keep) as [P1 [P2 P3]].
    unfold bookkeeping in E. inversion E as [[E1 E2 E3]].
    split; [congruence|]. split; [congruence|].
    intros f Hf. rewrite E2. apply P3, Hf. }
  assert (Hload : forall blob keep,
             fst (loadFromBlobAndSynchronize R blob keep a) = Return sim ->
             ri_whfast_keep_unsynchronized sim = keep /\
             simulationarchive_filename sim = None /\
             (forall f, additional_forces a = Some f ->
                        sim_additional_forces sim = Some f)).
  { intros blob keep.
    destruct (reb_simulationarchive_load_blob R (simp a) (cfilename a) blob)
      as [retv s] eqn:El.
    rewrite (loadFromBlobAndSynchronize_cases R a blob keep retv s El).
    destruct (negb _); cbn [fst]; intro H; [discriminate H|].
    inversion H. apply (Hbk s _ a keep), Hsync. }
  split.
  - intros [|key|]; try (cbn; intro H; discriminate H).
    rewrite getitem_int.
    destruct (Nblob a <? 0); [cbn; intro H; discriminate H|]. cbv zeta.
    destruct (_ >=? _); [cbn; intro H; discriminate H|]. apply Hload.
  - intros t mode keep. unfold getSimulation.
    destruct (negb (mode_known mode)); [cbn; intro H; discriminate H|].
    unfold bind at 1.
    pose proof (getBlobJustBefore_state a t) as Hst.
    destruct (getBlobJustBefore t a) as [[[bi bt]|e] a1]; cbn in Hst;
      subst a1; [|cbn; intro H; discriminate H].
    destruct (String.eqb mode "blob"); [apply Hload|].
    cbv [bind get].
    match goal with
    | |- context [ (if ?c then ret tt else ?k) a ] =>
      assert (Ha : forall u a2, (if c then ret tt else k) a = (Return u, a2) ->
                     additional_forces a2 = additional_forces a);
      [|destruct ((if c then ret tt else k) a) as [[[]|e] a2]]
    end.
    { intros u a2. destruct (_ && _).
      - intro H. inversion H. reflexivity.
      - destruct (reb_simulationarchive_load_blob R _ _ _) as [retv s].
        destruct (negb _); intro H; inversion H. reflexivity. }
    2: cbn; intro H; discriminate H.
    specialize (Ha tt a2 eq_refl).
    fold (prepared a2 (simp a2) keep).
    specialize (Hint (prepared a2 (simp a2) keep) t
                  (if String.eqb mode "exact" then 1 else 0)).
    destruct (integrate R _ _ _) as [[e|] s']; cbn [fst snd] in *; intro H;
      [discriminate H|].
    inversion H; subst s'.
    destruct (Hbk (simp a2) sim a2 keep Hint) as [B1 [B2 B3]].
    split; [exact B1|]. split; [exact B2|].
    intros f Hf. apply B3. rewrite Ha. exact Hf.
Qed.

Lemma returned_state_bookkeeping_witness :
  exists sim,
    fst (getSimulation std_runtime 23 "close" 0 std_archive) = Return sim /\
    ri_whfast_keep_unsynchronized sim = 0 /\
    simulationarchive_filename sim = None.
Proof.
  assert (Hs : forall s : Simulation Z unit,
             bookkeeping (integrator_synchronize std_runtime s) =
             bookkeeping s) by (intro s; reflexivity).
  assert (Hi : forall (s : Simulation Z unit) t e,
             bookkeeping (snd (integrate std_runtime s t e)) =
             bookkeeping s) by (intros s t e; reflexivity).
  eexists. split; [reflexivity|].
  destruct (proj2 (returned_state_bookkeeping std_runtime std_archive _
                     Hs Hi) 23%Q "close" 0 eq_refl) as [H1 [H2 _]].
  split; assumption.
Defined.



(** X10.  Suppose a reload of the blob just loaded gives the engine's
    result again: after a successful load, from the handle as the archive
    prepared and synchronized it; after a failed one, from the handle as the
    engine left it.  Then blob mode is idempotent: a second identical call
    returns (or raises) what the first did and leaves the archive as the
    first left it. *)
Theorem blob_mode_idempotent {Body Forces} (R : Runtime Body Forces)
  (a : Archive Body Forces) (t : Q) (keep : Z) :
  (forall s i retv s1,
     reb_simulationarchive_load_blob R s (cfilename a) i = (retv, s1) ->
     reb_simulationarchive_load_blob R
       (if retv =? 0 then integrator_synchronize R (prepared a s1 keep)
        else s1)
       (cfilename a) i = (retv, s1)) ->
  getSimulation R t "blob" keep
    (snd (getSimulation R t "blob" keep a)) =
  getSimulation R t "blob" keep a.
Proof.
  intro Hst.
  assert (E : forall a0 : Archive Body Forces,
             getSimulation R t "blob" keep a0 =
             match getBlobJustBefore t a0 with
             | (Return (bi, _), a1) =>
               loadFromBlobAndSynchronize R bi keep a1
             | (Raise e, a1) => (Raise e, a1)
             end).
  { intro a0.
    cbv [getSimulation mode_known existsb String.eqb Ascii.eqb Bool.eqb
         negb orb bind].
    destruct (getBlobJustBefore t a0) as [[[bi bt]|e] a1]; reflexivity. }
  assert (Hres : forall sim,
             getBlobJustBefore t (set_simp a sim) =
             (fst (getBlobJustBefore t a), set_simp a sim)).
  { intro sim. cbv [getBlobJustBefore bind get]. cbn.
    destruct (_ || _); [reflexivity|].
    cbv [float_div ret raise]. destruct (Qeq_bool _ _); reflexivity. }
  rewrite (E a).
  pose proof (getBlobJustBefore_state a t) as Hs.
  destruct (getBlobJustBefore t a) as [[[bi bt]|e] a1] eqn:Eb;
    cbn in Hs; subst a1.
  - destruct (reb_simulationarchive_load_blob R (simp a) (cfilename a) bi)
      as [retv s1] eqn:El.
    rewrite (loadFromBlobAndSynchronize_cases R a bi keep retv s1 El).
    specialize (Hst (simp a) bi retv s1 El).
    destruct (Z.eqb_spec retv 0) as [Hz|Hz]; cbn [negb snd].
    + rewrite E, Hres. cbn [fst].
      rewrite (loadFromBlobAndSynchronize_cases R
                 (set_simp a (integrator_synchronize R (prepared a s1 keep)))
                 bi keep retv s1 Hst).
      subst retv. reflexivity.
    + rewrite E, Hres. cbn [fst].
      rewrite (loadFromBlobAndSynchronize_cases R (set_simp a s1)
                 bi keep retv s1 Hst).
      apply Z.eqb_neq in Hz. rewrite Hz. reflexivity.
  - cbn [snd]. rewrite E, Eb. reflexivity.
Qed.

Lemma blob_mode_idempotent_witness :
  getSimulation std_runtime 23 "blob" 1
    (snd (getSimulation std_runtime 23 "blob" 1 std_archive)) =
  getSimulation std_runtime 23 "blob" 1 std_archive.
Proof.
  apply (blob_mode_idempotent std_runtime std_archive 23 1).
  intros s i retv s1. cbn. unfold sample_load_blob.
  destruct ((0 <=? i) && (i <? 5)); intro H; inversion H; reflexivity.
Defined.

(** *** Errors of indexing *)



(** *** Iterating over the archive *)





(** *** More on the estimator *)

Example init_one_blob_archive :
  init (sample_runtime true 120 0 (1 # 4) 10) "archive.bin" None =
  Return one_blob_archive.
Proof. reflexivity. Qed.












(** X16.  The batch form of [estimateTime] gives the same outcome whatever
    [tbefore] the caller passes (it starts again from 0), and on an empty
    list it returns 0 without computing the speed: no blob is loaded and
    the archive is as it was. *)
Theorem estimateTime_batch_edge_cases {Body Forces}
  (R : Runtime Body Forces) (h : Heap) (a : Archive Body Forces) (l : loc)
  (tbefore : option Q) :
  estimateTime R (TList l) tbefore (h, a) =
    estimateTime R (TList l) None (h, a) /\
  (h l = [] ->
   fst (estimateTime R (TList l) tbefore (h, a)) = Return 0%Q /\
   snd (snd (estimateTime R (TList l) tbefore (h, a))) = a /\
   fst (snd (estimateTime R (TList l) tbefore (h, a))) l = []).
Proof.
  split; [rewrite !estimateTime_batch_unfold; reflexivity|].
  intro Hl. rewrite estimateTime_batch_unfold, Hl. cbn.
  split; [reflexivity|]. split; [reflexivity|]. apply heap_set_same.
Qed.

Lemma estimateTime_batch_edge_cases_witness :
  fst (estimateTime std_runtime (TList 3%nat) (Some 9%Q)
         (empty_heap, std_archive)) = Return 0%Q /\
  snd (snd (estimateTime std_runtime (TList 3%nat) (Some 9%Q)
              (empty_heap, std_archive))) = std_archive.
Proof.
  destruct (proj2 (estimateTime_batch_edge_cases std_runtime empty_heap
                     std_archive 3%nat (Some 9%Q)) eq_refl) as [H1 [H2 _]].
  split; assumption.
Defined.

(** *** Failures of the constructor *)

(** X17.  [__init__] fails in this order.  A file name with a character
    above 127 raises [UnicodeEncodeError] before the engine is called (the
    outcome does not depend on the runtime).  With an encodable name, a
    reconstructed state and bit 0 of the warnings clear: [OSError] when the
    file size cannot be read; otherwise [ZeroDivisionError] when the blob
    stride [seek_blob] is 0, as it is for a binary file saved without an
    archive. *)
Theorem init_failures {Body Forces} (R : Runtime Body Forces)
  (filename : string) (forces : option Forces) :
  (all_ascii filename = false ->
   init R filename forces = Raise UnicodeEncodeError) /\
  (all_ascii filename = true ->
   forall sim w,
     reb_create_simulation_from_binary_with_messages R filename =
       (Some sim, w) ->
     Z.testbit w 0 = false ->
     (os_path_getsize R filename = None ->
      init R filename forces = Raise OSError) /\
     (forall size,
        os_path_getsize R filename = Some size ->
        simulationarchive_seek_blob sim = 0 ->
        init R filename forces = Raise ZeroDivisionError)).
Proof.
  split.
  - intro Ha. cbv [init encode_ascii bind]. rewrite Ha. reflexivity.
  - intros Ha sim w Hc Hb. cbv [init encode_ascii bind]. rewrite Ha.
    cbv [ret]. rewrite Hc, land_1_testbit, Hb. cbv [negb]. split.
    + intro Hs. rewrite Hs. reflexivity.
    + intros size Hs Hz. rewrite Hs. cbv [int_of_div]. rewrite Hz.
      reflexivity.
Qed.

Lemma init_failures_witness :
  init std_runtime (String (ascii_of_nat 233) "t.bin") None =
    Raise UnicodeEncodeError /\
  init (custom_runtime None (sample_sim (1 # 4) 10) 2) "archive.bin" None =
    Raise OSError /\
  init (custom_runtime (Some 4096) plain_sim 0) "plain.bin" None =
    Raise ZeroDivisionError.
Proof.
  split; [|split].
  - apply (proj1 (init_failures std_runtime
                    (String (ascii_of_nat 233) "t.bin") None)).
    reflexivity.
  - apply (proj1 (proj2 (init_failures
                           (custom_runtime None (sample_sim (1 # 4) 10) 2)
                           "archive.bin" None)
                    eq_refl (sample_sim (1 # 4) 10) 2 eq_refl eq_refl)).
    reflexivity.
  - apply (proj2 (proj2 (init_failures
                           (custom_runtime (Some 4096) plain_sim 0)
                           "plain.bin" None)
                    eq_refl plain_sim 0 eq_refl eq_refl) 4096);
      reflexivity.
Defined.

(** *** The first step of a batch *)

Lemma list_sort_head_least (l : list Q) (m : Q) (rest : list Q) :
  list_sort l = m :: rest -> Forall (fun t => (m <= t)%Q) l.
Proof.
  intro H.
  pose proof (list_sort_sorted l) as Hs. rewrite H in Hs.
  apply Sorted_StronglySorted in Hs;
    [|intros x y z; apply Qle_trans].
  inversion Hs as [|x r _ Hall]; subst.
  apply Forall_forall. intros t Hin.
  assert (Hin' : In t (m :: rest)).
  { rewrite <- H. eapply Permutation_in; [apply list_sort_perm|exact Hin]. }
  destruct Hin' as [<- | Hr]; [apply Qle_refl|].
  apply (proj1 (Forall_forall _ _) Hall), Hr.
Qed.

(** X18.  The first [next] on the generator of [getSimulations] serves the
    least time of the caller's list, wherever it stood in the list: it
    returns or raises what [getSimulation] does for that time on the
    archive as it is, and on an exception the generator is finished.  On an
    empty list it raises [StopIteration] and leaves the archive as it
    was. *)
Theorem getSimulations_first_next {Body Forces} (R : Runtime Body Forces)
  (times : loc) (mode : string) (keep : Z) (h : Heap)
  (a : Archive Body Forces) :
  (h times = [] ->
   fst (fst (gen_next R (getSimulations times mode keep) (h, a))) =
     Raise StopIteration /\
   snd (snd (fst (gen_next R (getSimulations times mode keep) (h, a)))) =
     a) /\
  (h times <> [] ->
   exists m,
     In m (h times) /\ Forall (fun t => (m <= t)%Q) (h times) /\
     fst (fst (gen_next R (getSimulations times mode keep) (h, a))) =
       fst (getSimulation R m mode keep a) /\
     snd (snd (fst (gen_next R (getSimulations times mode keep) (h, a)))) =
       snd (getSimulation R m mode keep a) /\
     gen_at (snd (gen_next R (getSimulations times mode keep) (h, a))) =
       match fst (getSimulation R m mode keep a) with
       | Return _ => GenLoop 1
       | Raise _ => GenFinished
       end).
Proof.
  assert (E : gen_next R (getSimulations times mode keep) (h, a) =
              gen_step R (getSimulations times mode keep) 0
                (heap_set h times (list_sort (h times)), a))
    by reflexivity.
  rewrite E. unfold gen_step. cbn [fst snd gen_times getSimulations].
  rewrite heap_set_same. split.
  - intro Hl. rewrite Hl. cbn. split; reflexivity.
  - intro Hl.
    destruct (list_sort (h times)) as [|m rest] eqn:Es.
    + exfalso. exact (list_sort_nonempty (h times) Hl Es).
    + exists m. split.
      { eapply Permutation_in;
          [apply Permutation_sym, list_sort_perm|].
        rewrite Es. left. reflexivity. }
      split; [exact (list_sort_head_least (h times) m rest Es)|].
      cbv [nth_error lift_snd gen_mode gen_keep_unsynchronized
           getSimulations gen_goto gen_at fst snd].
      destruct (getSimulation R m mode keep a) as [[sim|e] a1];
        split; try split; reflexivity.
Qed.

Lemma getSimulations_first_next_witness :
  let h := heap_set empty_heap 0%nat [41%Q; 23%Q; 7%Q] in
  exists m,
    In m (h 0%nat) /\ Forall (fun t => (m <= t)%Q) (h 0%nat) /\
    fst (fst (gen_next std_runtime (getSimulations 0%nat "blob" 1)
                (h, std_archive))) =
      fst (getSimulation std_runtime m "blob" 1 std_archive).
Proof.
  cbv zeta.
  destruct (proj2 (getSimulations_first_next std_runtime 0%nat "blob" 1
                     (heap_set empty_heap 0%nat [41%Q; 23%Q; 7%Q])
                     std_archive))
    as [m [H1 [H2 [H3 _]]]].
  - discriminate.
  - exists m. split; [exact H1|]. split; [exact H2|exact H3].
Defined.
